(** * web-template: the error boundary, the counter pages and the route table

    A shallow embedding of the TypeScript/React sources

      - [src/components/errors/route-error-response.tsx]  ([RouteErrorResponse])
      - [src/pages/errors/app-error-boundary.tsx]         ([AppErrorBoundary])
      - the route table                                   ([rootRoutes])
      - the two counter pages                             ([Home], [App])

    JavaScript values are an inductive type, an exception is the [Throw]
    branch of a small error monad, and a JSX expression is the element
    tree that [React.createElement] builds from it. *)

From Stdlib Require Import String Ascii List ZArith Bool Lia DecimalString.
Import ListNotations.
Set Warnings "-register-all".
Local Open Scope string_scope.
Local Open Scope Z_scope.

(** ** JavaScript values *)

Module Js.

(** The objects the boundary can meet: plain data objects, and instances of
    [Error] and of its subclasses, each with the [name] its prototype chain
    gives it ("Error", "TypeError", ...).  Properties are data properties,
    in insertion order; the first binding of a key is the one that counts.
    Functions, symbols, arrays, accessors and proxies are outside the model
    (so an own property is never callable), and numbers are the integers
    together with [NaN]. *)
Inductive ObjClass :=
| PlainObject
| ErrorObject (inherited_name : string).

Inductive JsVal :=
| JUndefined
| JNull
| JBool (b : bool)
| JNum (n : Z)
| JNaN
| JStr (s : string)
| JObj (cls : ObjClass) (props : list (string * JsVal)).

(** What a JavaScript evaluation can raise here. *)
Inductive Exn :=
| TypeError_read (base : JsVal) (key : string)  (* property read on null / undefined *)
| TypeError_in (base : JsVal) (key : string)    (* [key in base] on a primitive *)
| TypeError_convert (base : JsVal).             (* no primitive value for an object *)

Inductive result (A : Type) :=
| Ok (a : A)
| Throw (e : Exn).
Arguments Ok {A} a.
Arguments Throw {A} e.

Definition bind {A B} (m : result A) (k : A -> result B) : result B :=
  match m with
  | Ok a => k a
  | Throw e => Throw e
  end.

Notation "x <- m ;; k" := (bind m (fun x => k))
  (at level 61, m at next level, right associativity).

(** [typeof v] *)
Definition typeof (v : JsVal) : string :=
  match v with
  | JUndefined => "undefined"
  | JNull => "object"
  | JBool _ => "boolean"
  | JNum _ | JNaN => "number"
  | JStr _ => "string"
  | JObj _ _ => "object"
  end.

(** ToBoolean, the test behind [||], [&&] and [if]. *)
Definition truthy (v : JsVal) : bool :=
  match v with
  | JUndefined | JNull | JNaN => false
  | JBool b => b
  | JNum n => negb (n =? 0)
  | JStr s => negb (s =? "")%string
  | JObj _ _ => true
  end.

(** [v != null]: neither null nor undefined. *)
Definition not_nullish (v : JsVal) : bool :=
  match v with
  | JUndefined | JNull => false
  | _ => true
  end.

Fixpoint own (k : string) (props : list (string * JsVal)) : option JsVal :=
  match props with
  | [] => None
  | (k', v) :: rest => if (k =? k')%string then Some v else own k rest
  end.

(** The data properties an [Error] instance inherits: the [name] of its
    class and the empty [message] of [Error.prototype]. *)
Definition Error_prototype (inherited_name k : string) : JsVal :=
  if (k =? "name")%string then JStr inherited_name
  else if (k =? "message")%string then JStr ""
  else JUndefined.

(** [v.k] and [v[k]]: the own property, then the prototype's; [undefined]
    when there is none; a TypeError on null and undefined.  (The keys this
    program reads are status, statusText, internal, data, message and stack,
    none of which a primitive's wrapper prototype defines.) *)
Definition get (v : JsVal) (k : string) : result JsVal :=
  match v with
  | JUndefined | JNull => Throw (TypeError_read v k)
  | JBool _ | JNum _ | JNaN | JStr _ => Ok JUndefined
  | JObj cls props =>
      match own k props with
      | Some x => Ok x
      | None =>
          match cls with
          | PlainObject => Ok JUndefined
          | ErrorObject n => Ok (Error_prototype n k)
          end
      end
  end.

(** [k in v]: own or inherited data property; a TypeError unless [v] is an
    object.  (The program asks for the key data only.) *)
Definition has_property (k : string) (v : JsVal) : result bool :=
  match v with
  | JObj cls props =>
      match own k props with
      | Some _ => Ok true
      | None =>
          match cls with
          | PlainObject => Ok false
          | ErrorObject _ => Ok ((k =? "name")%string || (k =? "message")%string)
          end
      end
  | _ => Throw (TypeError_in v k)
  end.

Definition number_to_string (n : Z) : string :=
  NilZero.string_of_int (Z.to_int n).

(** [String(v)].  An object is converted through its [toString]: an own
    [toString] property hides the inherited method and, not being callable,
    is skipped, after which [valueOf] gives no primitive either, so the
    conversion throws a TypeError.  Otherwise a plain object prints through
    [Object.prototype.toString], and an [Error] instance through
    [Error.prototype.toString]: its [name] ("Error" when undefined) and its
    [message] ("" when undefined), each converted with [String], joined by
    ": " when both are non-empty. *)
Fixpoint to_string (v : JsVal) : result string :=
  match v with
  | JUndefined => Ok "undefined"
  | JNull => Ok "null"
  | JBool true => Ok "true"
  | JBool false => Ok "false"
  | JNum n => Ok (number_to_string n)
  | JNaN => Ok "NaN"
  | JStr s => Ok s
  | JObj cls props =>
      match own "toString" props with
      | Some _ => Throw (TypeError_convert (JObj cls props))
      | None =>
          match cls with
          | PlainObject => Ok "[object Object]"
          | ErrorObject inherited =>
              let fix field (k absent undef : string)
                            (ps : list (string * JsVal)) : result string :=
                match ps with
                | [] => Ok absent
                | (k', x) :: rest =>
                    if (k =? k')%string
                    then match x with JUndefined => Ok undef | _ => to_string x end
                    else field k absent undef rest
                end in
              name <- field "name" inherited "Error" props;;
              msg <- field "message" "" "" props;;
              Ok (if (name =? "")%string then msg
                  else if (msg =? "")%string then name
                  else name ++ ": " ++ msg)
          end
      end
  end.

(** [a || b], with [b] evaluated only when [a] is falsy. *)
Definition or_else (a : JsVal) (b : unit -> result JsVal) : result JsVal :=
  if truthy a then Ok a else b tt.

End Js.
Import Js.

(** ** The counter *)

Module Counter.

(** Modelled from the spec: the state of the counter store of [@/store]
    ([useCounterStore]) and of the hook of [@/hooks/use-counter]
    ([useCounter]), modules the pages import but that are not given.  The
    spec: "a single integer counter". *)
Record State := { count : Z }.

(** Modelled from the spec: the initial state ("starts at 0"). *)
Definition initial : State := {| count := 0 |}.

(** Modelled from the spec: the operations of the counter ("two operations
    (increment, reset)"). *)
Inductive Op := increment | reset.

(** Modelled from the spec: what the operations do ("clicking increment
    increases the counter by one"; reset returns to the initial value). *)
Definition apply (op : Op) (s : State) : State :=
  match op with
  | increment => {| count := count s + 1 |}
  | reset => {| count := 0 |}
  end.

Definition run (ops : list Op) (s : State) : State :=
  fold_left (fun st op => apply op st) ops s.

Definition Op_eq_dec (a b : Op) : {a = b} + {a <> b}.
Proof. decide equality. Defined.

End Counter.

(** ** React elements *)

(** An event callback, as the store operations it invokes, in call order. *)
Definition Handler := list Counter.Op.

(** The element types the pages use: host tags, and the [Button] component
    of [@/components/ui/button], imported by [Home] but not given; it stays
    an element type of its own, with its props and children. *)
Inductive ElemType :=
| Host (tag : string)
| Button.

Record Props := { className : option string; onClick : option Handler }.

(** A JSX child: literal text, an [{expression}] with the value it evaluated
    to, or an element. *)
Inductive VNode :=
| VText (s : string)
| VExpr (v : JsVal)
| VElem (type : ElemType) (props : Props) (children : list VNode).

Definition no_props : Props := {| className := None; onClick := None |}.
Definition class (c : string) : Props := {| className := Some c; onClick := None |}.
Definition on_click (h : Handler) : Props := {| className := None; onClick := Some h |}.

Definition tag (t : string) (p : Props) (children : list VNode) : VNode :=
  VElem (Host t) p children.

(** The text React DOM writes for an expression child: strings and numbers
    as they print, nothing for booleans, null and undefined; an object is
    not a valid child.  The text of an element is the text of its children
    ([Button] included: it is a button around its children). *)
Definition child_text (v : JsVal) : option string :=
  match v with
  | JStr s => Some s
  | JNum n => Some (number_to_string n)
  | JNaN => Some "NaN"
  | JUndefined | JNull | JBool _ => Some ""
  | JObj _ _ => None
  end.

Fixpoint text_content (n : VNode) : option string :=
  match n with
  | VText s => Some s
  | VExpr v => child_text v
  | VElem _ _ children =>
      let fix all (l : list VNode) : option string :=
        match l with
        | [] => Some ""
        | c :: rest =>
            match text_content c, all rest with
            | Some a, Some b => Some (a ++ b)
            | _, _ => None
            end
        end in
      all children
  end.

(** The fixed part of an element tree: every expression slot emptied. *)
Fixpoint skeleton (n : VNode) : VNode :=
  match n with
  | VText s => VText s
  | VExpr _ => VExpr JUndefined
  | VElem t p children => VElem t p (map skeleton children)
  end.

(** The values in the expression slots, in document order. *)
Fixpoint slots (n : VNode) : list JsVal :=
  match n with
  | VText _ => []
  | VExpr v => [v]
  | VElem _ _ children => flat_map slots children
  end.

(** The elements that carry an [onClick], each with its callback, in
    document order. *)
Fixpoint clickables (n : VNode) : list (Handler * VNode) :=
  match n with
  | VText _ | VExpr _ => []
  | VElem _ p children =>
      match onClick p with
      | Some h => (h, n) :: flat_map clickables children
      | None => flat_map clickables children
      end
  end.

(** ** react-router *)

(** [isRouteErrorResponse] of react-router: the type guard for
    [ErrorResponse]
    [error != null && typeof error.status === "number" &&
     typeof error.statusText === "string" &&
     typeof error.internal === "boolean" && "data" in error]. *)
Definition isRouteErrorResponse (error : JsVal) : result bool :=
  if negb (not_nullish error) then Ok false else
  status <- get error "status";;
  if negb (typeof status =? "number")%string then Ok false else
  statusText <- get error "statusText";;
  if negb (typeof statusText =? "string")%string then Ok false else
  internal <- get error "internal";;
  if negb (typeof internal =? "boolean")%string then Ok false else
  has_property "data" error.

Definition is_number (v : JsVal) : bool :=
  match v with JNum _ | JNaN => true | _ => false end.

Definition is_string (v : JsVal) : bool :=
  match v with JStr _ => true | _ => false end.

(** The TypeScript type [ErrorResponse] of react-router,
    [{ status: number; statusText: string; data: any }], as a predicate on
    runtime values. *)
Definition ErrorResponse (v : JsVal) : bool :=
  match v with
  | JObj _ props =>
      match own "status" props, own "statusText" props, own "data" props with
      | Some st, Some tx, Some _ => is_number st && is_string tx
      | _, _, _ => false
      end
  | _ => false
  end.

(** ** src/components/errors/route-error-response.tsx *)

(** The route-error screen, with its three expression slots. *)
Definition route_error (status statusText data : JsVal) : VNode :=
  tag "div" (class "h-screen flex flex-col justify-center items-center gap-3")
    [ tag "div" (class "route-error-header")
        [ tag "h1" (class "text-9xl font-bold") [VText "Ooops!"] ];
      tag "h3" (class "text-2xl font-bold")
        [ VExpr status; VText " - "; VExpr statusText ];
      tag "p" no_props [ VExpr data ] ].

Definition RouteErrorResponse (error : JsVal) : result VNode :=
  status <- get error "status";;
  statusText <- get error "statusText";;
  data <- get error "data";;
  Ok (route_error status statusText data).

(** ** src/pages/errors/app-error-boundary.tsx *)

(** The generic screen, with its two expression slots. *)
Definition unexpected_error (shown stack : JsVal) : VNode :=
  tag "div" no_props
    [ tag "h1" no_props [VText "Unexpected Error"];
      tag "p" no_props [VExpr shown];
      tag "p" no_props [VText "The stack is Here"];
      tag "pre" no_props [VExpr stack] ].

(** [useRouteError()] hands the component the value that was thrown; it is
    the argument here.  The element [<RouteErrorResponse error={error} />]
    is rendered by React calling [RouteErrorResponse] with that prop, which
    the embedding does in place. *)
Definition AppErrorBoundary (error : JsVal) : result VNode :=
  guard <- isRouteErrorResponse error;;
  if guard then RouteErrorResponse error
  else
    message <- get error "message";;
    shown <- or_else message (fun _ => s <- to_string error;; Ok (JStr s));;
    stack <- get error "stack";;
    Ok (unexpected_error shown stack).

(** ** The counter pages *)

(** Modelled from the spec: what the hooks [useCounterStore] and
    [useCounter] return, their modules being imported but not given: the
    current count and the callbacks for the counter's operations.  The spec
    knows one counter, so both hooks are views of it. *)
Record CounterHook :=
  { hook_count : Z; hook_increment : Handler; hook_reset : Handler }.

(** Modelled from the spec: the hook of [@/store]; [Home] takes the count,
    [increment] and [reset] from it. *)
Definition useCounterStore (s : Counter.State) : CounterHook :=
  {| hook_count := Counter.count s;
     hook_increment := [Counter.increment];
     hook_reset := [Counter.reset] |}.

(** Modelled from the spec: the hook of [@/hooks/use-counter]; [App] takes
    the count and [increment] from it. *)
Definition useCounter (s : Counter.State) : CounterHook := useCounterStore s.

(** The page of the index route. *)
Definition Home (store : Counter.State) : VNode :=
  let '{| hook_count := count; hook_increment := increment; hook_reset := reset |} :=
    useCounterStore store in
  tag "div" (class "min-h-screen flex flex-col items-center justify-center")
    [ tag "div" (class "flex flex-col items-center gap-5")
        [ tag "div" no_props
            [ tag "h1" (class "text-4xl font-bold capitalize text-center mb-2")
                [VText "Counter example"];
              tag "h2" (class "font-bold text-center")
                [VText "Vite + React + TailwindCSS"] ];
          tag "div" (class "flex gap-4")
            [ VElem Button (on_click increment) [VText "Count is "; VExpr (JNum count)];
              VElem Button (on_click reset) [VText "Reset"] ];
          tag "span" no_props
            [VText "Edit src/pages/index.tsx to see HMR in action!"] ] ].

Definition App (store : Counter.State) : VNode :=
  let '{| hook_count := count; hook_increment := increment; hook_reset := _ |} :=
    useCounter store in
  let handleClick : Handler := increment in
  tag "div" (class "min-h-screen flex flex-col items-center justify-center")
    [ tag "div" (class "flex flex-col items-center gap-5")
        [ tag "div" no_props
            [ tag "h1" (class "text-4xl font-bold capitalize text-center mb-2")
                [VText "Counter example"];
              tag "h2" (class "font-bold text-center")
                [VText "Vite + React + TailwindCSS"] ];
          tag "button"
            {| className :=
                 Some "cursor-pointer rounded p-2 bg-black text-white hover:bg-gray-800 transition";
               onClick := Some handleClick |}
            [VText "Count is "; VExpr (JNum count)];
          tag "span" no_props
            [VText "Edit src/pages/index.tsx to see HMR in action!"] ] ].

(** ** The route table *)

Module Routes.

Inductive ComponentRef :=
| AppErrorBoundary_ref          (* the boundary imported from @/pages/errors *)
| lazy (module : string).       (* lazy(() => import(module)) *)

Inductive RouteObject := Route
  { path : option string;
    index : bool;
    ErrorBoundary : option ComponentRef;
    Component : option ComponentRef;
    children : list RouteObject }.

Definition Home : ComponentRef := lazy "@/pages/index.tsx".

Definition rootRoutes : RouteObject :=
  {| path := Some "/";
     index := false;
     ErrorBoundary := Some AppErrorBoundary_ref;
     Component := None;
     children :=
       [ {| path := None;
            index := true;
            ErrorBoundary := None;
            Component := Some Home;
            children := [] |} ] |}.

(** Every route of a table, parents before children. *)
Fixpoint routes (r : RouteObject) : list RouteObject :=
  r :: flat_map routes (children r).

End Routes.

(** Induction over element trees, with the hypothesis for every child. *)
Fixpoint VNode_children_ind (P : VNode -> Prop)
    (Htext : forall s, P (VText s))
    (Hexpr : forall v, P (VExpr v))
    (Helem : forall t p cs, Forall P cs -> P (VElem t p cs))
    (n : VNode) : P n :=
  match n with
  | VText s => Htext s
  | VExpr v => Hexpr v
  | VElem t p cs =>
      Helem t p cs
        ((fix each (l : list VNode) : Forall P l :=
            match l with
            | [] => Forall_nil P
            | c :: rest =>
                Forall_cons c (VNode_children_ind P Htext Hexpr Helem c) (each rest)
            end) cs)
  end.

(** ** Sample errors *)

Module Sample.

(** What react-router hands over for an unmatched URL, and for a loader that
    answered 500. *)
Definition not_found : JsVal :=
  JObj PlainObject
    [ ("status", JNum 404); ("statusText", JStr "Not Found");
      ("internal", JBool true); ("data", JStr "Error: No route matches URL /missing") ].

Definition server_error : JsVal :=
  JObj PlainObject
    [ ("status", JNum 500); ("statusText", JStr "Internal Server Error");
      ("internal", JBool false); ("data", JStr "down for maintenance") ].

(** [new Error("boom")] *)
Definition boom : JsVal :=
  JObj (ErrorObject "Error")
    [ ("stack", JStr "Error: boom at loader (index.tsx:3:9)"); ("message", JStr "boom") ].

(** A plain object with the message and the stack of [boom]. *)
Definition boom_copy : JsVal :=
  JObj PlainObject
    [ ("message", JStr "boom"); ("stack", JStr "Error: boom at loader (index.tsx:3:9)") ].

(** [throw { message: 42 }] *)
Definition numeric_message : JsVal := JObj PlainObject [ ("message", JNum 42) ].

End Sample.

(** ** Shapes of thrown values *)

(** The primitives other than null and undefined. *)
Definition is_primitive (v : JsVal) : bool :=
  match v with
  | JBool _ | JNum _ | JNaN | JStr _ => true
  | _ => false
  end.

(** The [i]-th child of an element. *)
Definition child (i : nat) (n : VNode) : option VNode :=
  match n with
  | VElem _ _ children => nth_error children i
  | _ => None
  end.

(** The [i]-th child of the screen [t] shows the value [v] the way React
    prints it: a string or a number as text, nothing for a boolean, null or
    undefined, and no valid child for an object. *)
Definition shows (t : VNode) (i : nat) (v : JsVal) : Prop :=
  exists el, child i t = Some el /\ text_content el = child_text v.

Module Thrown.

(** An [Error] subclass instance that carries the fields of a route error
    response besides its message and stack. *)
Definition http_error : JsVal :=
  JObj (ErrorObject "Error")
    [ ("stack", JStr "Error: Not Found at fetchUser (api.ts:12:11)");
      ("message", JStr "Not Found");
      ("status", JNum 404); ("statusText", JStr "Not Found");
      ("internal", JBool false);
      ("data", JStr "Error: No route matches URL /missing") ].

(** An object literal of type [ErrorResponse], without the [internal] flag. *)
Definition bare_response : JsVal :=
  JObj PlainObject
    [ ("status", JNum 404); ("statusText", JStr "Not Found");
      ("data", JStr "no such user") ].

(** A route error response whose data is a parsed JSON body. *)
Definition json_response : JsVal :=
  JObj PlainObject
    [ ("status", JNum 422); ("statusText", JStr "Unprocessable Entity");
      ("internal", JBool false);
      ("data", JObj PlainObject [ ("field", JStr "email") ]) ].


(** [throw { toString: 1 }] *)
Definition unprintable : JsVal := JObj PlainObject [ ("toString", JNum 1) ].

(** [throw { message: true }] *)
Definition flagged : JsVal := JObj PlainObject [ ("message", JBool true) ].

(** [throw { code: 1 }] *)
Definition coded : JsVal := JObj PlainObject [ ("code", JNum 1) ].

End Thrown.

(** * Properties *)

(** ** Element trees *)

Lemma skeleton_slot_count (a : VNode) :
  forall b, skeleton a = skeleton b -> length (slots a) = length (slots b).
Proof.
  induction a as [s | v | t p cs IH] using VNode_children_ind;
    intros [s' | v' | t' p' cs']; simpl; intros E; try discriminate E; auto.
  injection E as _ _ E.
  revert cs' E.
  induction IH as [| c rest Hc _ IHrest]; intros [| c' rest'] E;
    simpl in E; try discriminate E; auto.
  injection E as E1 E2. simpl.
  rewrite !length_app.
  rewrite (Hc _ E1), (IHrest _ E2). reflexivity.
Qed.

(** A tree is its skeleton filled with its slot values. *)
Lemma skeleton_slots_inj (a : VNode) :
  forall b, skeleton a = skeleton b -> slots a = slots b -> a = b.
Proof.
  induction a as [s | v | t p cs IH] using VNode_children_ind;
    intros [s' | v' | t' p' cs']; simpl; intros E S; try discriminate E.
  - congruence.
  - congruence.
  - injection E as -> -> E.
    f_equal.
    revert cs' E S.
    induction IH as [| c rest Hc _ IHrest]; intros [| c' rest'] E S;
      simpl in E; try discriminate E; auto.
    injection E as E1 E2. simpl in S.
    apply app_eq_app in S as [l [[S1 S2] | [S1 S2]]].
    + pose proof (skeleton_slot_count _ _ E1) as L.
      rewrite S1, length_app in L.
      assert (l = []) by (destruct l; simpl in L; [reflexivity | lia]).
      subst l. rewrite app_nil_r in S1. simpl in S2.
      f_equal; [apply Hc | apply IHrest]; congruence.
    + pose proof (skeleton_slot_count _ _ E1) as L.
      rewrite S1, length_app in L.
      assert (l = []) by (destruct l; simpl in L; [reflexivity | lia]).
      subst l. rewrite app_nil_r in S1. simpl in S2.
      f_equal; [apply Hc | apply IHrest]; congruence.
Qed.

Lemma append_empty (s : string) : (s ++ "")%string = s.
Proof. induction s as [| c s IH]; simpl; [reflexivity | now rewrite IH]. Qed.

Lemma append_assoc (a b c : string) :
  ((a ++ b) ++ c)%string = (a ++ (b ++ c))%string.
Proof. induction a as [| x a IH]; simpl; [reflexivity | now rewrite IH]. Qed.

(** An element around one expression shows that expression. *)
Lemma text_single (ty : ElemType) (p : Props) (v : JsVal) :
  text_content (VElem ty p [VExpr v]) = child_text v.
Proof.
  cbn. destruct (child_text v); [now rewrite append_empty | reflexivity].
Qed.

(** ** The guard *)

Lemma get_not_nullish (v : JsVal) (k : string) :
  not_nullish v = true -> exists x, get v k = Ok x.
Proof.
  destruct v as [ | | b | n | | s | cls props]; simpl; intros H;
    try discriminate H; eauto.
  destruct (own k props); eauto. destruct cls; eauto.
Qed.

(** [isRouteErrorResponse] never throws: the [in] test is reached for
    objects only. *)
Lemma isRouteErrorResponse_total (v : JsVal) :
  exists b, isRouteErrorResponse v = Ok b.
Proof.
  destruct v as [ | | b | n | | s | cls props]; try (cbn; eauto; fail).
  set (o := JObj cls props).
  assert (N : not_nullish o = true) by reflexivity.
  unfold isRouteErrorResponse. rewrite N. cbn [negb].
  destruct (get_not_nullish o "status" N) as [a ->].
  cbn [bind]. destruct (negb _); eauto.
  destruct (get_not_nullish o "statusText" N) as [a' ->].
  cbn [bind]. destruct (negb _); eauto.
  destruct (get_not_nullish o "internal" N) as [a'' ->].
  cbn [bind]. destruct (negb _); eauto.
  subst o. unfold has_property.
  destruct (own "data" props); eauto. destruct cls; eauto.
Qed.

Lemma isRouteErrorResponse_nullish (v : JsVal) :
  not_nullish v = false -> isRouteErrorResponse v = Ok false.
Proof. destruct v; simpl; intros H; try discriminate H; reflexivity. Qed.

(** The guard narrows to the type [ErrorResponse]. *)
Lemma isRouteErrorResponse_narrows (v : JsVal) :
  isRouteErrorResponse v = Ok true -> ErrorResponse v = true.
Proof.
  destruct v as [ | | b | n | | s | cls props]; cbn; try discriminate.
  unfold isRouteErrorResponse, get, has_property, ErrorResponse; cbn.
  destruct (own "status" props) as [st |] eqn:Est;
    [ | destruct cls; cbn; discriminate ].
  destruct st; cbn; try discriminate;
    (destruct (own "statusText" props) as [tx |] eqn:Etx;
      [ | destruct cls; cbn; discriminate ]);
    destruct tx; cbn; try discriminate;
    (destruct (own "internal" props) as [it |] eqn:Eit;
      [ | destruct cls; cbn; discriminate ]);
    destruct it; cbn; try discriminate;
    (destruct (own "data" props) as [d |] eqn:Ed;
      [ reflexivity | destruct cls; cbn; discriminate ]).
Qed.

Lemma get_ErrorResponse (v : JsVal) :
  ErrorResponse v = true ->
  exists status statusText data,
    get v "status" = Ok status /\ is_number status = true /\
    get v "statusText" = Ok statusText /\ is_string statusText = true /\
    get v "data" = Ok data.
Proof.
  destruct v as [ | | b | n | | s | cls props]; simpl; try discriminate.
  destruct (own "status" props) as [st |]; try discriminate.
  destruct (own "statusText" props) as [tx |]; try discriminate.
  destruct (own "data" props) as [d |]; try discriminate.
  intros H. apply andb_prop in H as [H1 H2].
  exists st, tx, d. auto.
Qed.

(** ** The boundary on values that are not null or undefined *)

Lemma AppErrorBoundary_route (error : JsVal) :
  isRouteErrorResponse error = Ok true ->
  AppErrorBoundary error = RouteErrorResponse error.
Proof. intros G. unfold AppErrorBoundary. rewrite G. reflexivity. Qed.

Lemma AppErrorBoundary_generic (error : JsVal) :
  not_nullish error = true ->
  isRouteErrorResponse error = Ok false ->
  exists message stack,
    get error "message" = Ok message /\
    get error "stack" = Ok stack /\
    AppErrorBoundary error =
      (shown <- or_else message (fun _ => s <- to_string error;; Ok (JStr s));;
       Ok (unexpected_error shown stack)).
Proof.
  intros N G.
  destruct (get_not_nullish error "message" N) as [m Hm].
  destruct (get_not_nullish error "stack" N) as [s Hs].
  exists m, s. repeat split; auto.
  unfold AppErrorBoundary. rewrite G. cbn [bind]. rewrite Hm. cbn [bind].
  destruct (or_else m _); cbn [bind]; [rewrite Hs |]; reflexivity.
Qed.

Lemma RouteErrorResponse_ok (error : JsVal) :
  ErrorResponse error = true ->
  exists status statusText data,
    get error "status" = Ok status /\ is_number status = true /\
    get error "statusText" = Ok statusText /\ is_string statusText = true /\
    get error "data" = Ok data /\
    RouteErrorResponse error = Ok (route_error status statusText data).
Proof.
  intros H.
  destruct (get_ErrorResponse error H) as (st & tx & d & H1 & H2 & H3 & H4 & H5).
  exists st, tx, d. repeat split; auto.
  unfold RouteErrorResponse. rewrite H1, H3, H5. reflexivity.
Qed.

(** On every value but null and undefined the boundary makes a two-way
    choice; the one way out of the generic branch without an element is a
    [String(error)] that throws. *)
Lemma AppErrorBoundary_two_way (error : JsVal) :
  not_nullish error = true ->
  (isRouteErrorResponse error = Ok true /\
   exists status statusText data,
     AppErrorBoundary error = Ok (route_error status statusText data)) \/
  (isRouteErrorResponse error = Ok false /\
   ((exists shown stack,
       AppErrorBoundary error = Ok (unexpected_error shown stack)) \/
    (exists e, to_string error = Throw e /\ AppErrorBoundary error = Throw e))).
Proof.
  intros N.
  destruct (isRouteErrorResponse_total error) as [[|] G]; [left | right];
    split; auto.
  - rewrite (AppErrorBoundary_route _ G).
    destruct (RouteErrorResponse_ok error (isRouteErrorResponse_narrows _ G))
      as (st & tx & d & _ & _ & _ & _ & _ & R).
    eauto.
  - destruct (AppErrorBoundary_generic error N G) as (m & s & _ & _ & R).
    rewrite R. unfold or_else.
    destruct (truthy m); [left; cbn; eauto |].
    destruct (to_string error) as [str | e]; cbn; [left | right]; eauto.
Qed.

(** ** The error boundary: claims *)

(** C1. The claim: for every error value the boundary renders the
    route-error template exactly when [isRouteErrorResponse] holds and the
    generic template otherwise, with no third outcome.  At [null] the guard
    is false and the boundary returns neither template: reading [message]
    throws. *)
Theorem AppErrorBoundary_null_third_outcome :
  isRouteErrorResponse JNull = Ok false /\
  (forall t, AppErrorBoundary JNull <> Ok t) /\
  (forall shown stack, AppErrorBoundary JNull <> Ok (unexpected_error shown stack)) /\
  (forall status statusText data,
     AppErrorBoundary JNull <> Ok (route_error status statusText data)).
Proof. repeat split; intros; discriminate. Qed.

(** C10. The claim: for every error value, null and undefined included, the
    boundary returns an element without throwing, the reads of [message]
    and [stack] succeeding.  On null and on undefined both reads throw a
    TypeError, and so does the boundary. *)
Theorem AppErrorBoundary_throws_on_nullish :
  get JNull "message" = Throw (TypeError_read JNull "message") /\
  get JNull "stack" = Throw (TypeError_read JNull "stack") /\
  get JUndefined "message" = Throw (TypeError_read JUndefined "message") /\
  get JUndefined "stack" = Throw (TypeError_read JUndefined "stack") /\
  AppErrorBoundary JNull = Throw (TypeError_read JNull "message") /\
  AppErrorBoundary JUndefined = Throw (TypeError_read JUndefined "message").
Proof. repeat split. Qed.

(** C6, as stated, fails: within one branch the rendered output changes with
    the error.  Two route errors give two different screens, and so do two
    thrown strings. *)
Lemma output_varies_within_branch :
  isRouteErrorResponse Sample.not_found = Ok true /\
  isRouteErrorResponse Sample.server_error = Ok true /\
  AppErrorBoundary Sample.not_found <> AppErrorBoundary Sample.server_error /\
  isRouteErrorResponse (JStr "a") = Ok false /\
  isRouteErrorResponse (JStr "b") = Ok false /\
  AppErrorBoundary (JStr "a") <> AppErrorBoundary (JStr "b").
Proof. repeat split; discriminate. Qed.

(** C6, amended.  Each of the two templates has a fixed skeleton (elements,
    class names and literal text), the same for every error of its branch;
    what varies is the content of its expression slots: status, statusText
    and data on the route-error screen, the value of
    [message || String(error)] and stack on the generic one. *)
Theorem templates_fixed_up_to_slots (error : JsVal) (t : VNode) :
  AppErrorBoundary error = Ok t ->
  (isRouteErrorResponse error = Ok true /\
   skeleton t = skeleton (route_error JUndefined JUndefined JUndefined) /\
   exists status statusText data,
     get error "status" = Ok status /\
     get error "statusText" = Ok statusText /\
     get error "data" = Ok data /\
     slots t = [status; statusText; data]) \/
  (isRouteErrorResponse error = Ok false /\
   skeleton t = skeleton (unexpected_error JUndefined JUndefined) /\
   exists message stack shown,
     get error "message" = Ok message /\
     get error "stack" = Ok stack /\
     or_else message (fun _ => s <- to_string error;; Ok (JStr s)) = Ok shown /\
     slots t = [shown; stack]).
Proof.
  intros R.
  destruct (isRouteErrorResponse_total error) as [[|] G]; [left | right];
    split; auto.
  - rewrite (AppErrorBoundary_route _ G) in R.
    destruct (RouteErrorResponse_ok error (isRouteErrorResponse_narrows _ G))
      as (st & tx & d & H1 & _ & H2 & _ & H3 & R').
    rewrite R' in R. injection R as <-.
    split; [reflexivity |]. exists st, tx, d. auto.
  - assert (N : not_nullish error = true).
    { destruct error; try reflexivity; discriminate R. }
    destruct (AppErrorBoundary_generic error N G) as (m & s & H1 & H2 & R').
    rewrite R' in R.
    destruct (or_else m _) as [sh | e] eqn:O; [| discriminate R].
    injection R as <-.
    split; [reflexivity |]. exists m, s, sh. auto.
Qed.

Lemma templates_fixed_up_to_slots_witness :
  AppErrorBoundary Sample.not_found =
    Ok (route_error (JNum 404) (JStr "Not Found")
          (JStr "Error: No route matches URL /missing")) /\
  ((isRouteErrorResponse Sample.not_found = Ok true /\
    skeleton (route_error (JNum 404) (JStr "Not Found")
                (JStr "Error: No route matches URL /missing")) =
      skeleton (route_error JUndefined JUndefined JUndefined) /\
    exists status statusText data,
      get Sample.not_found "status" = Ok status /\
      get Sample.not_found "statusText" = Ok statusText /\
      get Sample.not_found "data" = Ok data /\
      slots (route_error (JNum 404) (JStr "Not Found")
               (JStr "Error: No route matches URL /missing")) =
        [status; statusText; data]) \/
   (isRouteErrorResponse Sample.not_found = Ok false /\
    skeleton (route_error (JNum 404) (JStr "Not Found")
                (JStr "Error: No route matches URL /missing")) =
      skeleton (unexpected_error JUndefined JUndefined) /\
    exists message stack shown,
      get Sample.not_found "message" = Ok message /\
      get Sample.not_found "stack" = Ok stack /\
      or_else message (fun _ => s <- to_string Sample.not_found;; Ok (JStr s)) =
        Ok shown /\
      slots (route_error (JNum 404) (JStr "Not Found")
               (JStr "Error: No route matches URL /missing")) =
        [shown; stack])).
Proof.
  split; [reflexivity |].
  apply (templates_fixed_up_to_slots Sample.not_found). reflexivity.
Defined.

(** C7. For every value of type [ErrorResponse], [RouteErrorResponse]
    returns the route-error screen, whose expression slots hold the error's
    status (a number), its statusText and its data, in that order. *)
Theorem RouteErrorResponse_contains_fields (error : JsVal) :
  ErrorResponse error = true ->
  exists status statusText data t,
    get error "status" = Ok status /\ is_number status = true /\
    get error "statusText" = Ok statusText /\
    get error "data" = Ok data /\
    RouteErrorResponse error = Ok t /\
    slots t = [status; statusText; data] /\
    In (VExpr status) (match t with VElem _ _ [_; VElem _ _ h3; _] => h3 | _ => [] end) /\
    In (VExpr statusText) (match t with VElem _ _ [_; VElem _ _ h3; _] => h3 | _ => [] end) /\
    In (VExpr data) (match t with VElem _ _ [_; _; VElem _ _ p] => p | _ => [] end).
Proof.
  intros H.
  destruct (RouteErrorResponse_ok error H)
    as (st & tx & d & H1 & H2 & H3 & _ & H4 & R).
  exists st, tx, d, (route_error st tx d).
  repeat split; auto; simpl; auto.
Qed.

Lemma RouteErrorResponse_contains_fields_witness :
  ErrorResponse Sample.not_found = true /\
  exists status statusText data t,
    get Sample.not_found "status" = Ok status /\ is_number status = true /\
    get Sample.not_found "statusText" = Ok statusText /\
    get Sample.not_found "data" = Ok data /\
    RouteErrorResponse Sample.not_found = Ok t /\
    slots t = [status; statusText; data] /\
    In (VExpr status) (match t with VElem _ _ [_; VElem _ _ h3; _] => h3 | _ => [] end) /\
    In (VExpr statusText) (match t with VElem _ _ [_; VElem _ _ h3; _] => h3 | _ => [] end) /\
    In (VExpr data) (match t with VElem _ _ [_; _; VElem _ _ p] => p | _ => [] end).
Proof.
  split; [reflexivity |].
  apply (RouteErrorResponse_contains_fields Sample.not_found). reflexivity.
Defined.

(** C9, as stated, fails.  Two thrown strings have the same [message] and
    the same [stack] (both undefined), yet the screens differ, because
    [String(error)] differs.  A [message] that is truthy without being a
    string is put on the screen itself, not [String(error)]: 42 is shown as
    42, and [true] shows nothing.  And where [message] is missing,
    [String(error)] can throw instead of giving a text. *)
Lemma generic_output_needs_more_than_message_and_stack :
  isRouteErrorResponse (JStr "a") = Ok false /\
  isRouteErrorResponse (JStr "b") = Ok false /\
  get (JStr "a") "message" = get (JStr "b") "message" /\
  get (JStr "a") "stack" = get (JStr "b") "stack" /\
  AppErrorBoundary (JStr "a") <> AppErrorBoundary (JStr "b") /\
  isRouteErrorResponse Sample.numeric_message = Ok false /\
  get Sample.numeric_message "message" = Ok (JNum 42) /\
  is_string (JNum 42) = false /\
  to_string Sample.numeric_message = Ok "[object Object]" /\
  AppErrorBoundary Sample.numeric_message =
    Ok (unexpected_error (JNum 42) JUndefined) /\
  isRouteErrorResponse Thrown.flagged = Ok false /\
  AppErrorBoundary Thrown.flagged =
    Ok (unexpected_error (JBool true) JUndefined) /\
  text_content (tag "p" no_props [VExpr (JBool true)]) = Some "" /\
  isRouteErrorResponse Thrown.unprintable = Ok false /\
  get Thrown.unprintable "message" = Ok JUndefined /\
  AppErrorBoundary Thrown.unprintable =
    Throw (TypeError_convert Thrown.unprintable).
Proof. repeat split; discriminate. Qed.

(** C9, amended.  For every error value other than null and undefined that
    is not a route error response: a [message] that is a non-empty string is
    displayed in the message paragraph; with a falsy [message] the paragraph
    displays [String(error)], or the boundary throws the TypeError of that
    conversion; any other truthy [message] is handed to React as it is (a
    number is printed, [true] prints nothing, an object is no valid child);
    the [pre] block receives [error.stack] and React prints it by the same
    rule.  Two such errors with the same message and the same stack give
    the same result when that message is truthy or their [String(error)]
    agree. *)
Theorem generic_template_content (e1 e2 : JsVal) :
  not_nullish e1 = true -> isRouteErrorResponse e1 = Ok false ->
  not_nullish e2 = true -> isRouteErrorResponse e2 = Ok false ->
  exists message stack,
    get e1 "message" = Ok message /\
    get e1 "stack" = Ok stack /\
    (forall s, message = JStr s -> s <> "" ->
       exists t p,
         AppErrorBoundary e1 = Ok t /\ child 1 t = Some p /\
         text_content p = Some s) /\
    (truthy message = false ->
       match to_string e1 with
       | Ok s =>
           exists t p,
             AppErrorBoundary e1 = Ok t /\ child 1 t = Some p /\
             text_content p = Some s
       | Throw e => AppErrorBoundary e1 = Throw e
       end) /\
    (truthy message = true ->
       AppErrorBoundary e1 = Ok (unexpected_error message stack) /\
       shows (unexpected_error message stack) 1 message) /\
    (forall t, AppErrorBoundary e1 = Ok t -> shows t 3 stack) /\
    (get e2 "message" = Ok message -> get e2 "stack" = Ok stack ->
     truthy message = true \/ to_string e1 = to_string e2 ->
     AppErrorBoundary e1 = AppErrorBoundary e2).
Proof.
  intros N1 G1 N2 G2.
  destruct (AppErrorBoundary_generic e1 N1 G1) as (m & s & Hm & Hs & R1).
  exists m, s. split; [exact Hm |]. split; [exact Hs |].
  unfold or_else in R1.
  split; [| split; [| split; [| split]]].
  - intros str -> Hne.
    assert (T : truthy (JStr str) = true).
    { simpl. destruct (String.eqb_spec str ""); [contradiction | reflexivity]. }
    rewrite T in R1. cbn [bind] in R1.
    do 2 eexists. split; [exact R1 |]. split; [reflexivity |].
    exact (text_single _ _ _).
  - intros T. rewrite T in R1.
    destruct (to_string e1) as [str | e]; cbn [bind] in R1; [| exact R1].
    do 2 eexists. split; [exact R1 |]. split; [reflexivity |].
    exact (text_single _ _ _).
  - intros T. rewrite T in R1. cbn [bind] in R1.
    split; [exact R1 |].
    eexists. split; [reflexivity |]. apply text_single.
  - intros t Ht. rewrite R1 in Ht.
    destruct (if truthy m then _ else _) as [sh | e]; cbn [bind] in Ht;
      [| discriminate Ht].
    injection Ht as <-.
    eexists. split; [reflexivity |]. apply text_single.
  - intros Hm2 Hs2 Hcase.
    destruct (AppErrorBoundary_generic e2 N2 G2) as (m' & s' & Hm' & Hs' & R2).
    rewrite Hm2 in Hm'. injection Hm' as <-.
    rewrite Hs2 in Hs'. injection Hs' as <-.
    rewrite R1, R2. unfold or_else.
    destruct (truthy m); [reflexivity |].
    destruct Hcase as [Hc | Hc]; [discriminate Hc | rewrite Hc; reflexivity].
Qed.

Lemma generic_template_content_witness :
  not_nullish Sample.boom = true /\
  isRouteErrorResponse Sample.boom = Ok false /\
  not_nullish Sample.boom_copy = true /\
  isRouteErrorResponse Sample.boom_copy = Ok false /\
  exists message stack,
    get Sample.boom "message" = Ok message /\
    get Sample.boom "stack" = Ok stack /\
    (forall s, message = JStr s -> s <> "" ->
       exists t p,
         AppErrorBoundary Sample.boom = Ok t /\ child 1 t = Some p /\
         text_content p = Some s) /\
    (truthy message = false ->
       match to_string Sample.boom with
       | Ok s =>
           exists t p,
             AppErrorBoundary Sample.boom = Ok t /\ child 1 t = Some p /\
             text_content p = Some s
       | Throw e => AppErrorBoundary Sample.boom = Throw e
       end) /\
    (truthy message = true ->
       AppErrorBoundary Sample.boom = Ok (unexpected_error message stack) /\
       shows (unexpected_error message stack) 1 message) /\
    (forall t, AppErrorBoundary Sample.boom = Ok t -> shows t 3 stack) /\
    (get Sample.boom_copy "message" = Ok message ->
     get Sample.boom_copy "stack" = Ok stack ->
     truthy message = true \/ to_string Sample.boom = to_string Sample.boom_copy ->
     AppErrorBoundary Sample.boom = AppErrorBoundary Sample.boom_copy).
Proof.
  repeat (split; [reflexivity |]).
  apply (generic_template_content Sample.boom Sample.boom_copy); reflexivity.
Defined.

(** ** The counter: claims *)

Lemma apply_nonnegative (op : Counter.Op) (s : Counter.State) :
  0 <= Counter.count s -> 0 <= Counter.count (Counter.apply op s).
Proof. destruct op; simpl; lia. Qed.

Lemma run_nonnegative (ops : list Counter.Op) :
  forall s, 0 <= Counter.count s -> 0 <= Counter.count (Counter.run ops s).
Proof.
  induction ops as [| op ops IH]; intros s H; simpl; [exact H |].
  apply IH, apply_nonnegative, H.
Qed.

(** C2. In every counter state [n], the first clickable element of the page
    is the button labelled "Count is n"; its callback invokes [increment]
    once and nothing else, and running it takes the counter from [n] to
    [n + 1].  This holds for [Home] (the [Button] with [onClick={increment}])
    and for [App] (the [button] with [handleClick]). *)
Theorem click_increments_counter (n : Z) :
  let s := {| Counter.count := n |} in
  (exists button,
     nth_error (clickables (Home s)) 0 = Some ([Counter.increment], button) /\
     slots button = [JNum (Counter.count s)] /\
     text_content button = Some ("Count is " ++ number_to_string n)%string) /\
  (exists button,
     nth_error (clickables (App s)) 0 = Some ([Counter.increment], button) /\
     slots button = [JNum (Counter.count s)] /\
     text_content button = Some ("Count is " ++ number_to_string n)%string) /\
  count_occ Counter.Op_eq_dec [Counter.increment] Counter.increment = 1%nat /\
  Counter.run [Counter.increment] s = {| Counter.count := n + 1 |}.
Proof.
  cbv zeta. repeat split.
  - eexists. split; [reflexivity |]. split; [reflexivity |].
    cbn. now rewrite append_empty.
  - eexists. split; [reflexivity |]. split; [reflexivity |].
    cbn. now rewrite append_empty.
Qed.

(** C3. The counter starts at 0, and after every sequence of operations
    from the initial state its value is a non-negative integer. *)
Theorem counter_nonnegative (ops : list Counter.Op) :
  Counter.count Counter.initial = 0 /\
  0 <= Counter.count (Counter.run ops Counter.initial).
Proof.
  split; [reflexivity |].
  apply run_nonnegative. simpl. lia.
Qed.

(** ** The route table: claims *)

(** C5. The table is one root route with path "/" and [AppErrorBoundary] as
    its ErrorBoundary; the root has exactly one child, an index route whose
    Component is the lazily loaded [Home]; there is no further route. *)
Theorem rootRoutes_shape :
  Routes.path Routes.rootRoutes = Some "/" /\
  Routes.index Routes.rootRoutes = false /\
  Routes.ErrorBoundary Routes.rootRoutes = Some Routes.AppErrorBoundary_ref /\
  exists child,
    Routes.children Routes.rootRoutes = [child] /\
    Routes.index child = true /\
    Routes.path child = None /\
    Routes.Component child = Some Routes.Home /\
    Routes.Home = Routes.lazy "@/pages/index.tsx" /\
    Routes.children child = [] /\
    Routes.routes Routes.rootRoutes = [Routes.rootRoutes; child].
Proof. repeat split. eexists. repeat split. Qed.

(** * Further properties of the error screens *)

(** ** When the components throw *)

(** X1. [AppErrorBoundary] throws in two cases and no other: on null and
    undefined, with the TypeError of reading [message]; and on a value that
    is not a route error response, has a falsy [message], and whose
    [String(error)] throws, with that TypeError.  In every other case it
    returns an element. *)
Theorem AppErrorBoundary_throws_exactly_when (error : JsVal) :
  match AppErrorBoundary error with
  | Ok _ =>
      not_nullish error = true /\
      (isRouteErrorResponse error = Ok true \/
       (exists m, get error "message" = Ok m /\ truthy m = true) \/
       (exists s, to_string error = Ok s))
  | Throw e =>
      (not_nullish error = false /\ e = TypeError_read error "message") \/
      (not_nullish error = true /\
       isRouteErrorResponse error = Ok false /\
       (exists m, get error "message" = Ok m /\ truthy m = false) /\
       to_string error = Throw e)
  end.
Proof.
  destruct (not_nullish error) eqn:N.
  - destruct (isRouteErrorResponse_total error) as [[|] G].
    + rewrite (AppErrorBoundary_route _ G).
      destruct (RouteErrorResponse_ok error (isRouteErrorResponse_narrows _ G))
        as (st & tx & d & _ & _ & _ & _ & _ & ->).
      auto.
    + destruct (AppErrorBoundary_generic error N G) as (m & s & Hm & _ & ->).
      unfold or_else. destruct (truthy m) eqn:T; cbn [bind].
      * split; [reflexivity |]. right; left; eauto.
      * destruct (to_string error) as [str | e]; cbn [bind].
        -- split; [reflexivity |]. right; right; eauto.
        -- right. repeat split; eauto.
  - destruct error; try discriminate N; simpl; auto.
Qed.

(** X2. [RouteErrorResponse] throws exactly on null and undefined, at the
    read of [status]; on every other value, whatever fields it has, it
    returns the route-error screen filled with what the three reads gave. *)
Theorem RouteErrorResponse_throws_exactly_on_nullish (error : JsVal) :
  match RouteErrorResponse error with
  | Ok t =>
      not_nullish error = true /\
      exists status statusText data,
        get error "status" = Ok status /\
        get error "statusText" = Ok statusText /\
        get error "data" = Ok data /\
        t = route_error status statusText data
  | Throw e => not_nullish error = false /\ e = TypeError_read error "status"
  end.
Proof.
  destruct (not_nullish error) eqn:N.
  - destruct (get_not_nullish error "status" N) as [st Hst].
    destruct (get_not_nullish error "statusText" N) as [tx Htx].
    destruct (get_not_nullish error "data" N) as [d Hd].
    unfold RouteErrorResponse. rewrite Hst, Htx, Hd. cbn [bind].
    split; [reflexivity |]. exists st, tx, d. repeat split; auto.
  - destruct error; try discriminate N; simpl; auto.
Qed.

(** ** Thrown primitives *)

Lemma text_unexpected_error (shown stack : JsVal) (a b : string) :
  child_text shown = Some a -> child_text stack = Some b ->
  text_content (unexpected_error shown stack) =
    Some ("Unexpected Error" ++ a ++ "The stack is Here" ++ b)%string.
Proof.
  intros Ha Hb. cbn. rewrite Ha, Hb. cbn.
  now rewrite !append_empty.
Qed.

(** X3. A thrown string, number or boolean is not a route error response;
    the generic screen shows [String(error)] for it and an empty stack
    block, so its text is "Unexpected Error", the printed value and "The
    stack is Here". *)
Theorem thrown_primitive_screen (error : JsVal) :
  is_primitive error = true ->
  exists printed,
    to_string error = Ok printed /\
    isRouteErrorResponse error = Ok false /\
    AppErrorBoundary error = Ok (unexpected_error (JStr printed) JUndefined) /\
    text_content (unexpected_error (JStr printed) JUndefined) =
      Some ("Unexpected Error" ++ printed ++ "The stack is Here")%string.
Proof.
  intros P.
  assert (H : exists printed, to_string error = Ok printed).
  { destruct error as [ | | [|] | | | | ]; try discriminate P; simpl; eauto. }
  destruct H as [printed H]. exists printed. split; [exact H |].
  split; [| split].
  - destruct error; try discriminate P; reflexivity.
  - destruct error; try discriminate P;
      unfold AppErrorBoundary; cbn; cbn in H; rewrite ?H; cbn;
      try (injection H as <-); reflexivity.
  - rewrite (text_unexpected_error _ _ printed "") by reflexivity.
    now rewrite append_empty.
Qed.

Lemma thrown_primitive_screen_witness :
  is_primitive (JStr "out of stock") = true /\
  exists printed,
    to_string (JStr "out of stock") = Ok printed /\
    isRouteErrorResponse (JStr "out of stock") = Ok false /\
    AppErrorBoundary (JStr "out of stock") =
      Ok (unexpected_error (JStr printed) JUndefined) /\
    text_content (unexpected_error (JStr printed) JUndefined) =
      Some ("Unexpected Error" ++ printed ++ "The stack is Here")%string.
Proof.
  split; [reflexivity |].
  apply (thrown_primitive_screen (JStr "out of stock")). reflexivity.
Defined.

(** ** The route-error screen *)

(** X4. For a route error response the heading of the screen reads the
    status number, " - " and the status text. *)
Theorem route_error_heading_text (error : JsVal) :
  isRouteErrorResponse error = Ok true ->
  exists status printed statusText t h3,
    get error "status" = Ok status /\ is_number status = true /\
    to_string status = Ok printed /\
    get error "statusText" = Ok (JStr statusText) /\
    AppErrorBoundary error = Ok t /\
    child 1 t = Some h3 /\
    text_content h3 = Some (printed ++ " - " ++ statusText)%string.
Proof.
  intros G.
  destruct (RouteErrorResponse_ok error (isRouteErrorResponse_narrows _ G))
    as (st & tx & d & H1 & N & H2 & S & _ & R).
  destruct tx as [ | | | | | txt | ]; try discriminate S.
  assert (P : exists printed,
             to_string st = Ok printed /\ child_text st = Some printed).
  { destruct st; try discriminate N; simpl; eauto. }
  destruct P as (printed & P1 & P2).
  exists st, printed, txt, (route_error st (JStr txt) d).
  eexists. repeat split; eauto.
  - rewrite (AppErrorBoundary_route _ G). exact R.
  - cbn. rewrite P2. cbn. now rewrite append_empty.
Qed.

Lemma route_error_heading_text_witness :
  isRouteErrorResponse Sample.not_found = Ok true /\
  exists status printed statusText t h3,
    get Sample.not_found "status" = Ok status /\ is_number status = true /\
    to_string status = Ok printed /\
    get Sample.not_found "statusText" = Ok (JStr statusText) /\
    AppErrorBoundary Sample.not_found = Ok t /\
    child 1 t = Some h3 /\
    text_content h3 = Some (printed ++ " - " ++ statusText)%string.
Proof.
  split; [reflexivity |].
  apply (route_error_heading_text Sample.not_found). reflexivity.
Defined.

(** X5. The route-error screen depends on status, statusText and data
    alone: two route error responses that agree on these three render the
    same, whatever else they carry (an [Error] instance with these fields
    gets this screen, and neither its message nor its stack is shown). *)
Theorem route_screen_ignores_other_fields (e1 e2 : JsVal) :
  isRouteErrorResponse e1 = Ok true ->
  isRouteErrorResponse e2 = Ok true ->
  get e1 "status" = get e2 "status" ->
  get e1 "statusText" = get e2 "statusText" ->
  get e1 "data" = get e2 "data" ->
  AppErrorBoundary e1 = AppErrorBoundary e2 /\
  exists t, AppErrorBoundary e1 = Ok t /\ length (slots t) = 3%nat.
Proof.
  intros G1 G2 Hs Ht Hd.
  rewrite (AppErrorBoundary_route _ G1), (AppErrorBoundary_route _ G2).
  destruct (RouteErrorResponse_ok e1 (isRouteErrorResponse_narrows _ G1))
    as (st & tx & d & H1 & _ & H2 & _ & H3 & R).
  split.
  - unfold RouteErrorResponse. now rewrite Hs, Ht, Hd.
  - rewrite R. eexists. split; reflexivity.
Qed.

Lemma route_screen_ignores_other_fields_witness :
  isRouteErrorResponse Sample.not_found = Ok true /\
  isRouteErrorResponse Thrown.http_error = Ok true /\
  get Sample.not_found "status" = get Thrown.http_error "status" /\
  get Sample.not_found "statusText" = get Thrown.http_error "statusText" /\
  get Sample.not_found "data" = get Thrown.http_error "data" /\
  AppErrorBoundary Sample.not_found = AppErrorBoundary Thrown.http_error /\
  exists t, AppErrorBoundary Sample.not_found = Ok t /\ length (slots t) = 3%nat.
Proof.
  repeat (split; [reflexivity |]).
  apply (route_screen_ignores_other_fields Sample.not_found Thrown.http_error);
    reflexivity.
Defined.

(** ** Errors without a usable message *)

(** [String] of a plain object. *)
Lemma to_string_plain (props : list (string * JsVal)) :
  to_string (JObj PlainObject props) =
    match own "toString" props with
    | Some _ => Throw (TypeError_convert (JObj PlainObject props))
    | None => Ok "[object Object]"
    end.
Proof. reflexivity. Qed.




(** X7. A thrown plain object without a truthy message that is not a route
    error response is shown as "[object Object]", with its stack property
    if it has one; unless it has a [toString] property of its own, in which
    case [String(error)] throws and so does the boundary. *)
Theorem plain_object_without_message
    (props : list (string * JsVal)) (message : JsVal) :
  get (JObj PlainObject props) "message" = Ok message ->
  truthy message = false ->
  isRouteErrorResponse (JObj PlainObject props) = Ok false ->
  match own "toString" props with
  | None =>
      exists stack,
        get (JObj PlainObject props) "stack" = Ok stack /\
        AppErrorBoundary (JObj PlainObject props) =
          Ok (unexpected_error (JStr "[object Object]") stack)
  | Some _ =>
      AppErrorBoundary (JObj PlainObject props) =
        Throw (TypeError_convert (JObj PlainObject props))
  end.
Proof.
  intros Hm T G.
  destruct (AppErrorBoundary_generic (JObj PlainObject props) eq_refl G)
    as (m & s & H1 & H2 & R).
  rewrite Hm in H1. injection H1 as <-.
  rewrite R. unfold or_else. rewrite T, to_string_plain.
  destruct (own "toString" props); [reflexivity |].
  exists s. split; [exact H2 | reflexivity].
Qed.

Lemma plain_object_without_message_witness :
  get Thrown.coded "message" = Ok JUndefined /\
  truthy JUndefined = false /\
  isRouteErrorResponse Thrown.coded = Ok false /\
  exists stack,
    get Thrown.coded "stack" = Ok stack /\
    AppErrorBoundary Thrown.coded =
      Ok (unexpected_error (JStr "[object Object]") stack).
Proof.
  repeat (split; [reflexivity |]).
  apply (plain_object_without_message [ ("code", JNum 1) ] JUndefined);
    reflexivity.
Defined.

(** ** Values of type ErrorResponse that the guard turns down *)

(** X8. A value of the type [ErrorResponse] whose [internal] is not a
    boolean does not get the route-error screen: the guard is false, and
    the boundary either renders the generic screen for it or throws the
    TypeError of [String(error)]. *)
Theorem response_without_internal_is_generic (error : JsVal) :
  ErrorResponse error = true ->
  (forall b, get error "internal" <> Ok (JBool b)) ->
  isRouteErrorResponse error = Ok false /\
  (forall status statusText data,
     AppErrorBoundary error <> Ok (route_error status statusText data)) /\
  ((exists shown stack,
      AppErrorBoundary error = Ok (unexpected_error shown stack)) \/
   (exists e, to_string error = Throw e /\ AppErrorBoundary error = Throw e)).
Proof.
  intros E I.
  assert (N : not_nullish error = true)
    by (destruct error; try discriminate E; reflexivity).
  assert (G : isRouteErrorResponse error = Ok false).
  { destruct (isRouteErrorResponse_total error) as [[|] G]; [| exact G].
    exfalso.
    destruct (get_not_nullish error "internal" N) as [i Hi].
    unfold isRouteErrorResponse in G. rewrite N in G. cbn [negb] in G.
    destruct (get_not_nullish error "status" N) as [a Ha]. rewrite Ha in G.
    cbn [bind] in G. destruct (negb _); [discriminate G |].
    destruct (get_not_nullish error "statusText" N) as [a' Ha']. rewrite Ha' in G.
    cbn [bind] in G. destruct (negb _); [discriminate G |].
    rewrite Hi in G. cbn [bind] in G.
    destruct i; try discriminate G. exact (I _ Hi). }
  split; [exact G |].
  destruct (AppErrorBoundary_two_way error N) as [[G' _] | [_ H]];
    [rewrite G in G'; discriminate G' |].
  split; [| exact H].
  intros st tx d.
  destruct H as [(sh & sk & ->) | (e & _ & ->)]; discriminate.
Qed.

Lemma response_without_internal_is_generic_witness :
  ErrorResponse Thrown.bare_response = true /\
  (forall b, get Thrown.bare_response "internal" <> Ok (JBool b)) /\
  isRouteErrorResponse Thrown.bare_response = Ok false /\
  (forall status statusText data,
     AppErrorBoundary Thrown.bare_response <>
       Ok (route_error status statusText data)) /\
  ((exists shown stack,
      AppErrorBoundary Thrown.bare_response = Ok (unexpected_error shown stack)) \/
   (exists e, to_string Thrown.bare_response = Throw e /\
              AppErrorBoundary Thrown.bare_response = Throw e)).
Proof.
  split; [reflexivity |]. split; [intros b; discriminate |].
  apply (response_without_internal_is_generic Thrown.bare_response);
    [reflexivity | intros b; discriminate].
Defined.

(** ** What React can put on the page *)

(** X9. For a route error response the text of the screen is "Ooops!", the
    heading, and the data as React prints it.  When the data is a plain
    object or an [Error] instance, React has no valid child in the data
    paragraph and the screen has no text to show. *)
Theorem route_screen_text (error : JsVal) :
  isRouteErrorResponse error = Ok true ->
  exists status printed statusText data t,
    get error "status" = Ok status /\
    to_string status = Ok printed /\
    get error "statusText" = Ok (JStr statusText) /\
    get error "data" = Ok data /\
    AppErrorBoundary error = Ok t /\
    text_content t =
      option_map
        (fun d => ("Ooops!" ++ printed ++ " - " ++ statusText ++ d)%string)
        (child_text data) /\
    (forall cls props, data = JObj cls props -> text_content t = None).
Proof.
  intros G.
  destruct (RouteErrorResponse_ok error (isRouteErrorResponse_narrows _ G))
    as (st & tx & d & H1 & N & H2 & S & H3 & R).
  destruct tx as [ | | | | | txt | ]; try discriminate S.
  assert (P : exists printed,
             to_string st = Ok printed /\ child_text st = Some printed).
  { destruct st; try discriminate N; simpl; eauto. }
  destruct P as (printed & P1 & P2).
  exists st, printed, txt, d, (route_error st (JStr txt) d).
  assert (T : text_content (route_error st (JStr txt) d) =
              option_map
                (fun x => ("Ooops!" ++ printed ++ " - " ++ txt ++ x)%string)
                (child_text d)).
  { cbn. rewrite P2. cbn.
    destruct (child_text d) as [x |]; cbn; [| reflexivity].
    rewrite !append_empty, append_assoc. reflexivity. }
  repeat split; auto.
  - rewrite (AppErrorBoundary_route _ G). exact R.
  - intros cls props ->. rewrite T. reflexivity.
Qed.

Lemma route_screen_text_witness :
  isRouteErrorResponse Thrown.json_response = Ok true /\
  exists status printed statusText data t,
    get Thrown.json_response "status" = Ok status /\
    to_string status = Ok printed /\
    get Thrown.json_response "statusText" = Ok (JStr statusText) /\
    get Thrown.json_response "data" = Ok data /\
    AppErrorBoundary Thrown.json_response = Ok t /\
    text_content t =
      option_map
        (fun d => ("Ooops!" ++ printed ++ " - " ++ statusText ++ d)%string)
        (child_text data) /\
    (forall cls props, data = JObj cls props -> text_content t = None).
Proof.
  split; [reflexivity |].
  apply (route_screen_text Thrown.json_response). reflexivity.
Defined.
